(** * The upload endpoint of [lightrag/api/routers/document_routes.py]

    A shallow embedding of [upload_to_input_dir] and the properties of it
    that the specification states.  The handler is sequential glue code
    around a handful of collaborators (the filename sanitizer, the document
    manager, the document-status store, the JSON codec, the filesystem and
    the background-task queue), so the embedding is a state-and-exception
    monad over an explicit [World], with the collaborators gathered in an
    environment record [Env]. *)

From Stdlib Require Import Ascii String.
From stdpp Require Import gmap strings list pretty.

Set Warnings "-register-all".

Local Open Scope Z_scope.
Local Open Scope string_scope.

(** ** Python values *)

(** The values that flow through the handler: the record returned by the
    document-status store (a [dict[str, Any]]), the result of [json.loads],
    and the tuple of supported extensions.  A Python [str] is represented by
    the Rocq string holding its UTF-8 encoding. *)
Inductive pyval : Type :=
| PyNone
| PyBool (b : bool)
| PyInt (n : Z)
| PyFloat (literal : string)
| PyStr (s : string)
| PyList (items : list pyval)
| PyTuple (items : list pyval)
| PyDict (entries : list (string * pyval)).

(** A [dict] with string keys, in insertion order. *)
Definition dict : Type := list (string * pyval).

(** The value stored under [key], if there is one. *)
Fixpoint dict_lookup (key : string) (d : dict) : option pyval :=
  match d with
  | [] => None
  | (k, v) :: rest => if String.eqb k key then Some v else dict_lookup key rest
  end.

(** [d.get(key, fallback)] *)
Definition dict_get (key : string) (d : dict) (fallback : pyval) : pyval :=
  default fallback (dict_lookup key d).

(** Truth value of what [get_doc_by_file_path] returns
    ([Union[dict[str, Any], None]]): [None] and the empty dict are false. *)
Definition doc_truthy (r : option dict) : bool :=
  match r with
  | None => false
  | Some [] => false
  | Some (_ :: _) => true
  end.

(** Truth value of the [metadata] form field ([str], default [None]). *)
Definition str_truthy (s : option string) : bool :=
  match s with
  | None => false
  | Some "" => false
  | Some _ => true
  end.

(** [isinstance(v, dict)] *)
Definition is_dict (v : pyval) : bool :=
  match v with PyDict _ => true | _ => false end.

(** ** Paths *)

(** A [pathlib.Path]; [fspath] is its string form ([str(p)], which is also
    what [open] hands to the operating system). *)
Record Path : Type := MkPath { fspath : string }.

(** What [open] accepts: a [str] or a [Path].  The two are different Python
    objects even when they spell the same location. *)
Inductive PathLike : Type :=
| AsStr (s : string)
| AsPath (p : Path).

Definition os_fspath (t : PathLike) : string :=
  match t with
  | AsStr s => s
  | AsPath p => fspath p
  end.

(** ** Exceptions *)

Inductive exn : Type :=
| HTTPException (status_code : Z) (detail : string)
| OtherException (cls : string) (msg : string).

(** ** Requests, responses, tasks *)

(** [file: UploadFile] together with the [metadata] form field. *)
Record UploadRequest : Type := {
  filename : string;
  content : list Byte.byte;
  metadata : option string
}.

Record InsertResponse : Type := {
  status : string;
  message : string;
  track_id : string
}.

(** [background_tasks.add_task(pipeline_index_file, rag, file_path, track_id)];
    [rag] is the module-level instance, the same for every request. *)
Inductive Task : Type :=
| PipelineIndexFile (file_path : Path) (track : string).

(** ** The world the handler runs in *)

Inductive IoOp : Type :=
| OpExists (p : string)
| OpOpen (p : string) (mode : string)
| OpWrite (p : string).

Inductive Event : Type :=
| EvSanitize (raw : string) (base : Path)
| EvGetDoc (key : string)
| EvExists (p : Path)
| EvOpen (target : PathLike) (mode : string)
| EvCopyFileObj (target : PathLike)
| EvGenerateTrackId (ns : string)
| EvJsonDump (target : PathLike)
| EvAddTask (t : Task)
| EvLogInfo (msg : string)
| EvLogError (msg : string)
| EvLogTraceback (e : exn).

Record World : Type := {
  fs : gmap string (list Byte.byte);   (* the files on disk, by path *)
  tasks : list Task;                   (* scheduled background tasks *)
  trace : list Event;                  (* what the handler did, in order *)
  clock : nat                          (* entropy consumed by id generation *)
}.

Definition set_fs (f : gmap string (list Byte.byte) → gmap string (list Byte.byte))
    (w : World) : World :=
  {| fs := f (fs w); tasks := tasks w; trace := trace w; clock := clock w |}.

Definition add_event (ev : Event) (w : World) : World :=
  {| fs := fs w; tasks := tasks w; trace := trace w ++ [ev]; clock := clock w |}.

Definition push_task (t : Task) (w : World) : World :=
  {| fs := fs w; tasks := tasks w ++ [t]; trace := trace w; clock := clock w |}.

Definition tick (w : World) : World :=
  {| fs := fs w; tasks := tasks w; trace := trace w; clock := S (clock w) |}.

(** ** The collaborators *)

Record Env : Type := {
  (* doc_manager *)
  input_dir : Path;
  is_supported_file : string → bool;
  supported_extensions : list string;
  (* pathlib: [base / name] *)
  truediv : Path → string → Path;
  (* sanitize_filename(name, base); it may raise *)
  sanitize_filename : string → Path → exn + string;
  (* rag.doc_status.get_doc_by_file_path(key); it may raise *)
  get_doc_by_file_path : string → exn + option dict;
  (* how an f-string renders a value that is not a str *)
  py_repr : pyval → string;
  (* str(e) for an exception *)
  exn_str : exn → string;
  (* json.loads(text): a value, or an exception *)
  json_loads : string → exn + pyval;
  (* the text json.dump(obj, fp, ensure_ascii=.., indent=..) produces *)
  json_dumps : pyval → bool → option nat → string;
  (* the per-request unique part of a tracking id *)
  unique_suffix : nat → string;
  (* which filesystem operations fail, and with what *)
  io_fault : IoOp → option exn;
  (* what a failed write leaves in the file it was writing *)
  torn : IoOp → list Byte.byte
}.

(** ** A monad for state and exceptions

    A Python exception does not undo the side effects that preceded it, so a
    computation returns its outcome together with the world it leaves. *)
Definition M (A : Type) : Type := World → (exn + A) * World.

#[global] Instance M_ret : MRet M := λ A x w, (inr x, w).

#[global] Instance M_bind : MBind M := λ A B f m w,
  match m w with
  | (inl ex, w') => (inl ex, w')
  | (inr x, w') => f x w'
  end.

Definition raise {A : Type} (ex : exn) : M A := λ w, (inl ex, w).

(** [try: body  except Exception as e: handler(e)] *)
Definition try_except {A : Type} (body : M A) (handler : exn → M A) : M A := λ w,
  match body w with
  | (inl ex, w') => handler ex w'
  | (inr x, w') => (inr x, w')
  end.

Definition emit (ev : Event) : M unit := λ w, (inr tt, add_event ev w).

Definition lift {A : Type} (r : exn + A) : M A := λ w, (r, w).

(** ** Primitive operations *)

Section Operations.
Context (e : Env).

(** An f-string field [{v}]. *)
Definition format_field (v : pyval) : string :=
  match v with
  | PyStr s => s
  | _ => py_repr e v
  end.

Definition call_sanitize_filename (raw : string) (base : Path) : M string :=
  emit (EvSanitize raw base);;
  lift (sanitize_filename e raw base).

Definition call_get_doc_by_file_path (key : string) : M (option dict) :=
  emit (EvGetDoc key);;
  lift (get_doc_by_file_path e key).

(** [p.exists()] *)
Definition path_exists (p : Path) : M bool := λ w,
  let w1 := add_event (EvExists p) w in
  match io_fault e (OpExists (fspath p)) with
  | Some ex => (inl ex, w1)
  | None => (inr (bool_decide (is_Some (fs w !! fspath p))), w1)
  end.

(** [open(target, mode)] for a writing mode: the file is created, or
    truncated when it is already there. *)
Definition open_for_writing (target : PathLike) (mode : string) : M unit := λ w,
  let w1 := add_event (EvOpen target mode) w in
  match io_fault e (OpOpen (os_fspath target) mode) with
  | Some ex => (inl ex, w1)
  | None => (inr tt, set_fs (insert (os_fspath target) []) w1)
  end.

(** Writing [data] into the open file and closing it; a failure leaves
    whatever had reached the disk. *)
Definition write_and_close (ev : Event) (target : PathLike)
    (data : list Byte.byte) : M unit := λ w,
  let w1 := add_event ev w in
  match io_fault e (OpWrite (os_fspath target)) with
  | Some ex =>
      (inl ex, set_fs (insert (os_fspath target) (torn e (OpWrite (os_fspath target)))) w1)
  | None => (inr tt, set_fs (insert (os_fspath target) data) w1)
  end.

(** [with open(file_path, "wb") as buffer: shutil.copyfileobj(src, buffer)] *)
Definition save_upload (file_path : Path) (data : list Byte.byte) : M unit :=
  open_for_writing (AsPath file_path) "wb";;
  write_and_close (EvCopyFileObj (AsPath file_path)) (AsPath file_path) data.

(** [with open(meta_path, "w", encoding="utf-8") as meta_file:
        json.dump(obj, meta_file, ensure_ascii=False, indent=2)] *)
Definition save_json (meta_path : string) (obj : pyval) : M unit :=
  open_for_writing (AsStr meta_path) "w";;
  write_and_close (EvJsonDump (AsStr meta_path)) (AsStr meta_path)
    (String.list_byte_of_string (json_dumps e obj false (Some 2%nat))).

(** Modelled from the spec: [generate_track_id] is not part of the
    excerpt.  The spec describes its result as a fresh identifier that
    carries the namespace it was asked for as a prefix; the unique part is
    drawn from the environment, one draw per call. *)
Definition generate_track_id (ns : string) : M string := λ w,
  (inr (ns +:+ unique_suffix e (clock w)),
   tick (add_event (EvGenerateTrackId ns) w)).

Definition add_task (t : Task) : M unit := λ w,
  (inr tt, push_task t (add_event (EvAddTask t) w)).

(** The object the sidecar holds for a metadata string:
    [try: parsed = json.loads(metadata); if not isinstance(parsed, dict):
    parsed = {"raw_metadata": metadata}
    except Exception: parsed = {"raw_metadata": metadata}] *)
Definition parse_metadata (text : string) : M pyval :=
  try_except
    (parsed_metadata ← lift (json_loads e text);
     if negb (is_dict parsed_metadata)
     then mret (PyDict [("raw_metadata", PyStr text)])
     else mret parsed_metadata)
    (λ _, mret (PyDict [("raw_metadata", PyStr text)])).

(** ** The handler *)

Definition unsupported_detail : string :=
  "Unsupported file type. Supported types: "
  +:+ format_field (PyTuple (PyStr <$> supported_extensions e)).

(** The body of the [try] block. *)
Definition upload_body (req : UploadRequest) : M InsertResponse :=
  safe_filename ← call_sanitize_filename (filename req) (input_dir e);
  if negb (is_supported_file e safe_filename) then
    raise (HTTPException 400 unsupported_detail)
  else
    existing_doc_data ← call_get_doc_by_file_path safe_filename;
    if doc_truthy existing_doc_data then
      let status := dict_get "status" (default [] existing_doc_data) (PyStr "unknown") in
      mret {| status := "duplicated";
              message := "File '" +:+ safe_filename
                         +:+ "' already exists in document storage (Status: "
                         +:+ format_field status +:+ ").";
              track_id := "" |}
    else
      let file_path := truediv e (input_dir e) safe_filename in
      present ← path_exists file_path;
      if (present : bool) then
        mret {| status := "duplicated";
                message := "File '" +:+ safe_filename
                           +:+ "' already exists in the input directory.";
                track_id := "" |}
      else
        save_upload file_path (content req);;
        track_id ← generate_track_id "upload";
        (if str_truthy (metadata req) then
           let text := default "" (metadata req) in
           parsed_metadata ← parse_metadata text;
           let meta_path := fspath file_path +:+ ".meta.json" in
           save_json meta_path parsed_metadata;;
           emit (EvLogInfo ("✅ Metadata saved for " +:+ safe_filename
                            +:+ ": " +:+ meta_path))
         else mret tt);;
        add_task (PipelineIndexFile file_path track_id);;
        mret {| status := "success";
                message := "File '" +:+ safe_filename
                           +:+ "' uploaded successfully. Processing will continue in background.";
                track_id := track_id |}.

(** [upload_to_input_dir]: the body under its catch-all. *)
Definition upload_to_input_dir (req : UploadRequest) : M InsertResponse :=
  try_except (upload_body req)
    (λ ex,
       emit (EvLogError ("Error /documents/upload: " +:+ filename req
                         +:+ ": " +:+ exn_str e ex));;
       emit (EvLogTraceback ex);;
       raise (HTTPException 500 (exn_str e ex))).

End Operations.

(** ** The sidecar, as the specification words it

    The object kept next to an upload whose metadata string is [text]: the
    parsed value when the string is the JSON text of an object, and
    otherwise the string itself wrapped under the key [raw_metadata]. *)
Definition sidecar_object (e : Env) (text : string) : pyval :=
  match json_loads e text with
  | inr (PyDict entries) => PyDict entries
  | _ => PyDict [("raw_metadata", PyStr text)]
  end.

(** The bytes of the sidecar file: UTF-8, two-space indentation, non-ASCII
    characters kept as they are. *)
Definition sidecar_bytes (e : Env) (text : string) : list Byte.byte :=
  String.list_byte_of_string (json_dumps e (sidecar_object e text) false (Some 2%nat)).

(** The path of the file an upload is stored at, and of its sidecar. *)
Definition storage_path (e : Env) (safe : string) : Path :=
  truediv e (input_dir e) safe.

Definition sidecar_path (e : Env) (safe : string) : string :=
  fspath (storage_path e safe) +:+ ".meta.json".

(** The paths of the filesystem accesses recorded in a trace. *)
Definition fs_target (ev : Event) : option string :=
  match ev with
  | EvExists p => Some (fspath p)
  | EvOpen target _ => Some (os_fspath target)
  | EvCopyFileObj target => Some (os_fspath target)
  | EvJsonDump target => Some (os_fspath target)
  | _ => None
  end.

Definition fs_targets (evs : list Event) : list string :=
  omap fs_target evs.

(** The metadata string the handler acts on: [None] and the empty string
    are both skipped. *)
Definition effective_metadata (req : UploadRequest) : option string :=
  if str_truthy (metadata req) then metadata req else None.

(** The tracking id given to the upload accepted in world [w]. *)
Definition upload_track_id (e : Env) (w : World) : string :=
  "upload" +:+ unique_suffix e (clock w).

(** What an accepted upload leaves on disk. *)
Definition files_after_upload (e : Env) (req : UploadRequest) (safe : string)
    (files : gmap string (list Byte.byte)) : gmap string (list Byte.byte) :=
  let saved := <[fspath (storage_path e safe) := content req]> files in
  match effective_metadata req with
  | Some text => <[sidecar_path e safe := sidecar_bytes e text]> saved
  | None => saved
  end.

(** What writing the sidecar adds to the trace. *)
Definition sidecar_events (e : Env) (req : UploadRequest) (safe : string) : list Event :=
  match effective_metadata req with
  | Some _ =>
      [EvOpen (AsStr (sidecar_path e safe)) "w";
       EvJsonDump (AsStr (sidecar_path e safe));
       EvLogInfo ("✅ Metadata saved for " +:+ safe +:+ ": " +:+ sidecar_path e safe)]
  | None => []
  end.

(** The trace of an accepted upload, in order. *)
Definition upload_events (e : Env) (req : UploadRequest) (safe track : string) : list Event :=
  [EvSanitize (filename req) (input_dir e);
   EvGetDoc safe;
   EvExists (storage_path e safe);
   EvOpen (AsPath (storage_path e safe)) "wb";
   EvCopyFileObj (AsPath (storage_path e safe));
   EvGenerateTrackId "upload"]
  ++ sidecar_events e req safe
  ++ [EvAddTask (PipelineIndexFile (storage_path e safe) track)].

(** ** A concrete environment

    A small, fully computable instance of the collaborators, used to run the
    handler on concrete requests. *)

Definition dquote : string := String "034"%char "".
Definition newline : string := String "010"%char "".

Definition ends_with (suffix s : string) : bool :=
  String.prefix (String.rev suffix) (String.rev s).

Fixpoint basename_go (acc s : string) : string :=
  match s with
  | "" => acc
  | String c rest =>
      if Ascii.eqb c "/"%char then basename_go "" rest
      else basename_go (acc +:+ String c "") rest
  end.

Definition demo_sanitize (raw : string) (base : Path) : exn + string :=
  let name := basename_go "" raw in
  if String.eqb name "" then inl (HTTPException 400 "Invalid filename")
  else inr name.

Definition demo_store (key : string) : exn + option dict :=
  if String.eqb key "indexed.txt" then
    inr (Some [("file_path", PyStr "indexed.txt"); ("status", PyStr "processed")])
  else if String.eqb key "legacy.txt" then
    inr (Some [("file_path", PyStr "legacy.txt")])
  else if String.eqb key "blank.txt" then
    inr (Some [])
  else if String.eqb key "down.txt" then
    inl (OtherException "ConnectionError" "document store unavailable")
  else inr None.

Fixpoint demo_repr_items (items : list pyval) : string :=
  match items with
  | [] => ""
  | [PyStr s] => "'" +:+ s +:+ "'"
  | PyStr s :: rest => "'" +:+ s +:+ "', " +:+ demo_repr_items rest
  | _ :: rest => "?, " +:+ demo_repr_items rest
  end.

Definition demo_repr (v : pyval) : string :=
  match v with
  | PyTuple items => "(" +:+ demo_repr_items items +:+ ")"
  | PyList items => "[" +:+ demo_repr_items items +:+ "]"
  | PyStr s => "'" +:+ s +:+ "'"
  | PyNone => "None"
  | _ => "?"
  end.

Definition demo_exn_str (ex : exn) : string :=
  match ex with
  | HTTPException code detail => pretty code +:+ ": " +:+ detail
  | OtherException _ msg => msg
  end.

(** The text [{"lang": "fr"}]. *)
Definition lang_fr_text : string :=
  "{" +:+ dquote +:+ "lang" +:+ dquote +:+ ": " +:+ dquote +:+ "fr" +:+ dquote +:+ "}".

Definition demo_loads (text : string) : exn + pyval :=
  if String.eqb text "{}" then inr (PyDict [])
  else if String.eqb text lang_fr_text then inr (PyDict [("lang", PyStr "fr")])
  else if String.eqb text "[1,2,3]" then inr (PyList [PyInt 1; PyInt 2; PyInt 3])
  else inl (OtherException "JSONDecodeError" "Expecting value: line 1 column 1 (char 0)").

Definition demo_dumps (obj : pyval) (ensure_ascii : bool) (indent : option nat) : string :=
  match obj with
  | PyDict [] => "{}"
  | PyDict [(k, PyStr v)] =>
      "{" +:+ newline +:+ "  " +:+ dquote +:+ k +:+ dquote +:+ ": "
      +:+ dquote +:+ v +:+ dquote +:+ newline +:+ "}"
  | _ => "null"
  end.

Definition demo_env : Env := {|
  input_dir := MkPath "inputs";
  is_supported_file := λ name, ends_with ".txt" name || ends_with ".md" name;
  supported_extensions := [".txt"; ".md"];
  truediv := λ base name, MkPath (fspath base +:+ "/" +:+ name);
  sanitize_filename := demo_sanitize;
  get_doc_by_file_path := demo_store;
  py_repr := demo_repr;
  exn_str := demo_exn_str;
  json_loads := demo_loads;
  json_dumps := demo_dumps;
  unique_suffix := λ n, "_" +:+ pretty n;
  io_fault := λ _, None;
  torn := λ _, []
|}.

(** The same environment with a filesystem that fails as [faults] says. *)
Definition with_faults (faults : IoOp → option exn) (e : Env) : Env := {|
  input_dir := input_dir e;
  is_supported_file := is_supported_file e;
  supported_extensions := supported_extensions e;
  truediv := truediv e;
  sanitize_filename := sanitize_filename e;
  get_doc_by_file_path := get_doc_by_file_path e;
  py_repr := py_repr e;
  exn_str := exn_str e;
  json_loads := json_loads e;
  json_dumps := json_dumps e;
  unique_suffix := unique_suffix e;
  io_fault := faults;
  torn := torn e
|}.

Definition empty_world : World :=
  {| fs := ∅; tasks := []; trace := []; clock := 0 |}.

Definition hello_bytes : list Byte.byte := String.list_byte_of_string "hello".

Definition some_request (name : string) (md : option string) : UploadRequest :=
  {| filename := name; content := hello_bytes; metadata := md |}.

(** A disk that fills up while the sidecar of [notes.txt] is being written. *)
Definition disk_full : exn := OtherException "OSError" "[Errno 28] No space left on device".

Definition sidecar_write_fault (op : IoOp) : option exn :=
  match op with
  | OpWrite p => if String.eqb p "inputs/notes.txt.meta.json" then Some disk_full else None
  | _ => None
  end.

(** A sidecar path that cannot be opened. *)
Definition sidecar_open_fault (op : IoOp) : option exn :=
  match op with
  | OpOpen p _ => if String.eqb p "inputs/notes.txt.meta.json" then Some disk_full else None
  | _ => None
  end.

(** A world in which [inputs/notes.txt] is already on disk. *)
Definition old_bytes : list Byte.byte := String.list_byte_of_string "old".

Definition world_with_notes : World :=
  {| fs := {["inputs/notes.txt" := old_bytes]}; tasks := []; trace := []; clock := 0 |}.

(** Paths below the demo input directory. *)
Definition under_inputs (p : string) : Prop := ∃ name, p = "inputs/" +:+ name.

(** A disk that fills up while [inputs/notes.txt] itself is being copied. *)
Definition upload_write_fault (op : IoOp) : option exn :=
  match op with
  | OpWrite p => if String.eqb p "inputs/notes.txt" then Some disk_full else None
  | _ => None
  end.

(** A filesystem on which nothing fails. *)
Definition no_fault (op : IoOp) : option exn := None.

(** A world in which a sidecar for [notes.txt] was left behind, without the
    file it described. *)
Definition world_with_stale_sidecar : World :=
  {| fs := {["inputs/notes.txt.meta.json" := old_bytes]};
     tasks := []; trace := []; clock := 0 |}.

(** * Properties *)

(** ** Auxiliary facts *)

Lemma string_length_app (s t : string) :
  String.length (s +:+ t) = (String.length s + String.length t)%nat.
Proof. induction s as [|c s IH]; simpl; [reflexivity | by rewrite IH]. Qed.

(** The sidecar never shares its path with the file it describes. *)
Lemma meta_path_ne (p : string) : p +:+ ".meta.json" ≠ p.
Proof.
  intros Heq. apply (f_equal String.length) in Heq.
  rewrite string_length_app in Heq. simpl in Heq. lia.
Qed.

Ltac unfold_handler :=
  unfold upload_to_input_dir, try_except, upload_body, call_sanitize_filename,
    call_get_doc_by_file_path, path_exists, save_upload, save_json,
    open_for_writing, write_and_close, generate_track_id, add_task,
    parse_metadata, emit, lift, raise, mbind, M_bind, mret, M_ret.

(** Worlds are reduced innermost first, so that the nested updates do not
    copy each other. *)
Ltac reduce_world :=
  cbv beta iota delta [set_fs add_event push_task tick fs tasks trace clock].

(** Closes one branch of the case analysis over the handler's paths: the
    trace is read off, its filesystem accesses are enumerated, and lookups
    at other paths go through the insertions. *)
Ltac close_access :=
  reduce_world; eexists; rewrite <- ?app_assoc;
  split; [simpl; reflexivity|];
  split;
    [ let p := fresh "p" in let Hp := fresh "Hp" in
      intros p Hp; cbn in Hp;
      repeat (apply elem_of_cons in Hp as [Hp|Hp]; [subst p; auto|]);
      by apply elem_of_nil in Hp
    | let p := fresh "p" in
      intros p ? ?; simpl; by rewrite ?lookup_insert_ne ].

(** Reads the trace of one branch off the final world. *)
Ltac close_prefix :=
  reduce_world; eexists; rewrite <- ?app_assoc;
  split; [simpl; reflexivity | eauto].

Section Handler.
Context (e : Env).

(** What the handler does with a name the document manager does not
    support: the 400 raised in the body is caught by the catch-all. *)
Lemma run_unsupported (req : UploadRequest) (w : World) (safe : string) :
  sanitize_filename e (filename req) (input_dir e) = inr safe →
  is_supported_file e safe = false →
  upload_to_input_dir e req w =
    (inl (HTTPException 500 (exn_str e (HTTPException 400 (unsupported_detail e)))),
     add_event (EvLogTraceback (HTTPException 400 (unsupported_detail e)))
       (add_event (EvLogError ("Error /documents/upload: " +:+ filename req +:+ ": "
                               +:+ exn_str e (HTTPException 400 (unsupported_detail e))))
          (add_event (EvSanitize (filename req) (input_dir e)) w))).
Proof.
  intros Hsan Hsup. unfold_handler. rewrite Hsan. simpl. rewrite Hsup. reflexivity.
Qed.

Lemma run_parse_metadata (text : string) (w : World) :
  parse_metadata e text w = (inr (sidecar_object e text), w).
Proof.
  unfold parse_metadata, sidecar_object, try_except, lift, mbind, M_bind, mret, M_ret.
  destruct (json_loads e text) as [ex|[]]; reflexivity.
Qed.

(** The first duplicate check answers. *)
Lemma run_store_duplicate (req : UploadRequest) (w : World) (safe : string)
    (r : option dict) :
  sanitize_filename e (filename req) (input_dir e) = inr safe →
  is_supported_file e safe = true →
  get_doc_by_file_path e safe = inr r →
  doc_truthy r = true →
  upload_to_input_dir e req w =
    (inr {| status := "duplicated";
            message := "File '" +:+ safe
                       +:+ "' already exists in document storage (Status: "
                       +:+ format_field e (dict_get "status" (default [] r) (PyStr "unknown"))
                       +:+ ").";
            track_id := "" |},
     add_event (EvGetDoc safe) (add_event (EvSanitize (filename req) (input_dir e)) w)).
Proof.
  intros Hsan Hsup Hdoc Htruthy. unfold_handler.
  rewrite Hsan. simpl. rewrite Hsup. simpl. rewrite Hdoc. simpl.
  rewrite Htruthy. reflexivity.
Qed.

(** The second duplicate check answers. *)
Lemma run_file_duplicate (req : UploadRequest) (w : World) (safe : string)
    (r : option dict) :
  sanitize_filename e (filename req) (input_dir e) = inr safe →
  is_supported_file e safe = true →
  get_doc_by_file_path e safe = inr r →
  doc_truthy r = false →
  io_fault e (OpExists (fspath (storage_path e safe))) = None →
  is_Some (fs w !! fspath (storage_path e safe)) →
  upload_to_input_dir e req w =
    (inr {| status := "duplicated";
            message := "File '" +:+ safe +:+ "' already exists in the input directory.";
            track_id := "" |},
     add_event (EvExists (storage_path e safe))
       (add_event (EvGetDoc safe)
          (add_event (EvSanitize (filename req) (input_dir e)) w))).
Proof.
  intros Hsan Hsup Hdoc Hfalsy Hio Hfile. unfold_handler. unfold storage_path in *.
  rewrite Hsan. simpl. rewrite Hsup. simpl. rewrite Hdoc. simpl.
  rewrite Hfalsy. rewrite Hio. simpl.
  rewrite bool_decide_true by exact Hfile. reflexivity.
Qed.

(** A new upload with a filesystem that does not fail. *)
Lemma run_new_upload (req : UploadRequest) (w : World) (safe : string)
    (r : option dict) :
  sanitize_filename e (filename req) (input_dir e) = inr safe →
  is_supported_file e safe = true →
  get_doc_by_file_path e safe = inr r →
  doc_truthy r = false →
  fs w !! fspath (storage_path e safe) = None →
  (∀ op, io_fault e op = None) →
  upload_to_input_dir e req w =
    (inr {| status := "success";
            message := "File '" +:+ safe
                       +:+ "' uploaded successfully. Processing will continue in background.";
            track_id := upload_track_id e w |},
     {| fs := files_after_upload e req safe (fs w);
        tasks := tasks w ++ [PipelineIndexFile (storage_path e safe) (upload_track_id e w)];
        trace := trace w ++ upload_events e req safe (upload_track_id e w);
        clock := S (clock w) |}).
Proof.
  intros Hsan Hsup Hdoc Hfalsy Hnew Hio.
  destruct w as [files queue events ticks]. simpl in Hnew.
  unfold upload_to_input_dir, try_except, upload_body, call_sanitize_filename,
    call_get_doc_by_file_path, path_exists, save_upload, save_json,
    open_for_writing, write_and_close, generate_track_id, add_task,
    emit, lift, raise, mbind, M_bind, mret, M_ret.
  unfold files_after_upload, upload_events, sidecar_events, effective_metadata,
    upload_track_id, sidecar_path, storage_path in *.
  rewrite Hsan. simpl. rewrite Hsup. simpl. rewrite Hdoc. simpl.
  rewrite Hfalsy. rewrite !Hio. simpl.
  rewrite bool_decide_false by (rewrite Hnew; apply is_Some_None).
  rewrite ?Hio.
  destruct (str_truthy (metadata req)) eqn:Hmd.
  - destruct (metadata req) as [text|] eqn:Hreq; [|discriminate]. simpl.
    rewrite run_parse_metadata. rewrite ?Hio. simpl.
    unfold sidecar_bytes. reduce_world.
    rewrite !insert_insert_eq. rewrite <- !app_assoc. reflexivity.
  - simpl. reduce_world.
    rewrite !insert_insert_eq. rewrite <- !app_assoc. reflexivity.
Qed.

(** The catch-all: whatever the body raises comes out as a 500 carrying the
    text of the exception, and the world is the one the body left, with two
    log records added. *)
Lemma run_body_raises (req : UploadRequest) (w w1 : World) (ex : exn) :
  upload_body e req w = (inl ex, w1) →
  upload_to_input_dir e req w =
    (inl (HTTPException 500 (exn_str e ex)),
     add_event (EvLogTraceback ex)
       (add_event (EvLogError ("Error /documents/upload: " +:+ filename req
                               +:+ ": " +:+ exn_str e ex)) w1)).
Proof.
  intros Hbody. unfold upload_to_input_dir, try_except. rewrite Hbody.
  reflexivity.
Qed.

Lemma run_body_returns (req : UploadRequest) (w w1 : World) (resp : InsertResponse) :
  upload_body e req w = (inr resp, w1) →
  upload_to_input_dir e req w = (inr resp, w1).
Proof.
  intros Hbody. unfold upload_to_input_dir, try_except. rewrite Hbody.
  reflexivity.
Qed.

(** The body of a new upload whose sidecar cannot be opened. *)
Lemma body_sidecar_open_fails (req : UploadRequest) (w : World) (safe text : string)
    (r : option dict) (ex : exn) :
  sanitize_filename e (filename req) (input_dir e) = inr safe →
  is_supported_file e safe = true →
  get_doc_by_file_path e safe = inr r →
  doc_truthy r = false →
  fs w !! fspath (storage_path e safe) = None →
  io_fault e (OpExists (fspath (storage_path e safe))) = None →
  io_fault e (OpOpen (fspath (storage_path e safe)) "wb") = None →
  io_fault e (OpWrite (fspath (storage_path e safe))) = None →
  metadata req = Some text →
  text ≠ "" →
  io_fault e (OpOpen (sidecar_path e safe) "w") = Some ex →
  ∃ w1, upload_body e req w = (inl ex, w1)
        ∧ fs w1 = <[fspath (storage_path e safe) := content req]> (fs w)
        ∧ tasks w1 = tasks w.
Proof.
  intros Hsan Hsup Hdoc Hfalsy Hnew Hex Hopen Hwrite Hmd Htext Hfault.
  unfold upload_body, call_sanitize_filename,
    call_get_doc_by_file_path, path_exists, save_upload, save_json,
    open_for_writing, write_and_close, generate_track_id, add_task,
    emit, lift, raise, mbind, M_bind, mret, M_ret.
  unfold sidecar_path, storage_path in *.
  rewrite Hsan. simpl. rewrite Hsup. simpl. rewrite Hdoc. simpl.
  rewrite Hfalsy, Hex. simpl.
  rewrite bool_decide_false by (rewrite Hnew; apply is_Some_None).
  rewrite Hopen, Hwrite, Hmd. simpl.
  destruct text as [|c text]; [done|]. simpl.
  rewrite run_parse_metadata. rewrite Hfault.
  eexists. split; [reflexivity|]. simpl.
  by rewrite insert_insert_eq.
Qed.

(** The body of a new upload whose sidecar is opened and then fails to be
    written. *)
Lemma body_sidecar_write_fails (req : UploadRequest) (w : World) (safe text : string)
    (r : option dict) (ex : exn) :
  sanitize_filename e (filename req) (input_dir e) = inr safe →
  is_supported_file e safe = true →
  get_doc_by_file_path e safe = inr r →
  doc_truthy r = false →
  fs w !! fspath (storage_path e safe) = None →
  io_fault e (OpExists (fspath (storage_path e safe))) = None →
  io_fault e (OpOpen (fspath (storage_path e safe)) "wb") = None →
  io_fault e (OpWrite (fspath (storage_path e safe))) = None →
  metadata req = Some text →
  text ≠ "" →
  io_fault e (OpOpen (sidecar_path e safe) "w") = None →
  io_fault e (OpWrite (sidecar_path e safe)) = Some ex →
  ∃ w1, upload_body e req w = (inl ex, w1)
        ∧ fs w1 = <[sidecar_path e safe := torn e (OpWrite (sidecar_path e safe))]>
                    (<[fspath (storage_path e safe) := content req]> (fs w))
        ∧ tasks w1 = tasks w.
Proof.
  intros Hsan Hsup Hdoc Hfalsy Hnew Hex Hopen Hwrite Hmd Htext Hmopen Hfault.
  unfold upload_body, call_sanitize_filename,
    call_get_doc_by_file_path, path_exists, save_upload, save_json,
    open_for_writing, write_and_close, generate_track_id, add_task,
    emit, lift, raise, mbind, M_bind, mret, M_ret.
  unfold sidecar_path, storage_path in *.
  rewrite Hsan. simpl. rewrite Hsup. simpl. rewrite Hdoc. simpl.
  rewrite Hfalsy, Hex. simpl.
  rewrite bool_decide_false by (rewrite Hnew; apply is_Some_None).
  rewrite Hopen, Hwrite, Hmd. simpl.
  destruct text as [|c text]; [done|]. simpl.
  rewrite run_parse_metadata. rewrite Hmopen. simpl. rewrite Hfault.
  eexists. split; [reflexivity|]. simpl.
  by rewrite !insert_insert_eq.
Qed.

(** Every path of the handler: the trace it adds starts with the call to the
    sanitizer, the filesystem accesses that follow are at the storage path
    of the sanitized name or at its sidecar, and no other file changes. *)
Lemma upload_accesses (req : UploadRequest) (w : World) :
  ∃ evs,
    trace (upload_to_input_dir e req w).2
      = (trace w ++ EvSanitize (filename req) (input_dir e) :: evs)%list
    ∧ match sanitize_filename e (filename req) (input_dir e) with
      | inl _ =>
          fs_targets evs = [] ∧ fs (upload_to_input_dir e req w).2 = fs w
      | inr safe =>
          (∀ p, p ∈ fs_targets evs →
                p = fspath (storage_path e safe) ∨ p = sidecar_path e safe)
          ∧ (∀ p, p ≠ fspath (storage_path e safe) → p ≠ sidecar_path e safe →
                  fs (upload_to_input_dir e req w).2 !! p = fs w !! p)
      end.
Proof.
  destruct w as [files queue events ticks].
  unfold upload_to_input_dir, try_except, upload_body, call_sanitize_filename,
    call_get_doc_by_file_path, path_exists, save_upload, save_json,
    open_for_writing, write_and_close, generate_track_id, add_task,
    emit, lift, raise, mbind, M_bind, mret, M_ret.
  unfold sidecar_path, storage_path.
  destruct (sanitize_filename e (filename req) (input_dir e)) as [ex|safe]; simpl.
  { eexists. rewrite <- !app_assoc. split; [reflexivity|]. by split. }
  set (fp := fspath (truediv e (input_dir e) safe)).
  destruct (is_supported_file e safe); simpl; [|close_access].
  destruct (get_doc_by_file_path e safe) as [ex|r]; simpl; [close_access|].
  destruct (doc_truthy r); simpl; [close_access|].
  destruct (io_fault e (OpExists fp)); simpl; [close_access|].
  destruct (bool_decide (is_Some (files !! fp))); simpl; [close_access|].
  destruct (io_fault e (OpOpen fp "wb")); simpl; [close_access|].
  destruct (io_fault e (OpWrite fp)); simpl; [close_access|].
  destruct (str_truthy (metadata req)); simpl; [|close_access].
  rewrite run_parse_metadata.
  destruct (io_fault e (OpOpen (fp +:+ ".meta.json") "w")); simpl; [close_access|].
  destruct (io_fault e (OpWrite (fp +:+ ".meta.json"))); simpl; close_access.
Qed.

End Handler.

(** ** The claims of the specification *)

Section Claims.
Context (e : Env).

(** C7: when the sanitized name is not a supported file type, the handler
    writes nothing: the files on disk are the ones it found, no background
    task is scheduled, the trace holds no filesystem access at all, and the
    exception the catch-all handled is the unsupported-type error. *)
Theorem C7_unsupported_upload_touches_no_file (req : UploadRequest) (w : World)
    (safe : string) :
  sanitize_filename e (filename req) (input_dir e) = inr safe →
  is_supported_file e safe = false →
  let out := upload_to_input_dir e req w in
  fs out.2 = fs w
  ∧ tasks out.2 = tasks w
  ∧ (∃ evs, trace out.2 = (trace w ++ evs)%list
            ∧ fs_targets evs = []
            ∧ EvLogTraceback (HTTPException 400 (unsupported_detail e)) ∈ evs)
  ∧ ∃ ex, out.1 = inl ex.
Proof.
  intros Hsan Hsup out. subst out. rewrite (run_unsupported e req w safe Hsan Hsup).
  simpl. repeat split.
  - eexists. rewrite <- !app_assoc. split; [reflexivity|].
    split; [reflexivity|]. set_solver.
  - eexists. reflexivity.
Qed.

(** C2: when the document-status store has a record for the sanitized name,
    the answer is the duplicate response with an empty tracking id and a
    message that carries the status held by the record; nothing is written
    and the filesystem is not even consulted, whatever it holds. *)
Theorem C2_store_record_gives_duplicate (req : UploadRequest) (w : World)
    (safe : string) (record : dict) (st : pyval) :
  sanitize_filename e (filename req) (input_dir e) = inr safe →
  is_supported_file e safe = true →
  get_doc_by_file_path e safe = inr (Some record) →
  dict_lookup "status" record = Some st →
  let out := upload_to_input_dir e req w in
  out.1 = inr {| status := "duplicated";
                 message := "File '" +:+ safe
                            +:+ "' already exists in document storage (Status: "
                            +:+ format_field e st +:+ ").";
                 track_id := "" |}
  ∧ fs out.2 = fs w
  ∧ tasks out.2 = tasks w
  ∧ ∃ evs, trace out.2 = (trace w ++ evs)%list ∧ fs_targets evs = [].
Proof.
  intros Hsan Hsup Hdoc Hst out. subst out.
  assert (doc_truthy (Some record) = true) as Htruthy.
  { destruct record; [discriminate | reflexivity]. }
  rewrite (run_store_duplicate e req w safe _ Hsan Hsup Hdoc Htruthy).
  simpl. unfold dict_get. rewrite Hst. simpl. repeat split.
  eexists. rewrite <- !app_assoc. split; reflexivity.
Qed.

(** C3: with no record in the store and a file already at the target path,
    the answer is the duplicate response with an empty tracking id, and the
    files on disk, the one at the target path among them, are unchanged. *)
Theorem C3_existing_file_gives_duplicate (req : UploadRequest) (w : World)
    (safe : string) (r : option dict) (old : list Byte.byte) :
  sanitize_filename e (filename req) (input_dir e) = inr safe →
  is_supported_file e safe = true →
  get_doc_by_file_path e safe = inr r →
  doc_truthy r = false →
  io_fault e (OpExists (fspath (storage_path e safe))) = None →
  fs w !! fspath (storage_path e safe) = Some old →
  let out := upload_to_input_dir e req w in
  out.1 = inr {| status := "duplicated";
                 message := "File '" +:+ safe
                            +:+ "' already exists in the input directory.";
                 track_id := "" |}
  ∧ fs out.2 !! fspath (storage_path e safe) = Some old
  ∧ fs out.2 = fs w
  ∧ tasks out.2 = tasks w.
Proof.
  intros Hsan Hsup Hdoc Hfalsy Hio Hold out. subst out.
  rewrite (run_file_duplicate e req w safe r Hsan Hsup Hdoc Hfalsy Hio)
    by (rewrite Hold; eauto).
  simpl. repeat split. exact Hold.
Qed.

(** C9 (amended): when the store returns a non-empty record that has no
    [status] field, the duplicate response is produced all the same, with
    [unknown] in the place of the status, and nothing is raised. *)
Theorem C9_missing_status_reads_unknown (req : UploadRequest) (w : World)
    (safe : string) (record : dict) :
  sanitize_filename e (filename req) (input_dir e) = inr safe →
  is_supported_file e safe = true →
  get_doc_by_file_path e safe = inr (Some record) →
  record ≠ [] →
  dict_lookup "status" record = None →
  (upload_to_input_dir e req w).1 =
    inr {| status := "duplicated";
           message := "File '" +:+ safe
                      +:+ "' already exists in document storage (Status: unknown).";
           track_id := "" |}.
Proof.
  intros Hsan Hsup Hdoc Hne Hst.
  assert (doc_truthy (Some record) = true) as Htruthy.
  { destruct record; [done | reflexivity]. }
  rewrite (run_store_duplicate e req w safe _ Hsan Hsup Hdoc Htruthy).
  simpl. unfold dict_get. rewrite Hst. reflexivity.
Qed.

(** C6: a valid new upload (supported name, no record in the store, no file
    at the target path) on a filesystem that does not fail: the uploaded
    bytes are at the target path as they came, the tracking id is a fresh
    draw prefixed with [upload] and is not empty, the indexing task for
    (file path, tracking id) is appended to the queue, in the trace it comes
    after the copy of the file, and the response is the success response
    with that tracking id. *)
Theorem C6_new_upload_is_stored_and_scheduled (req : UploadRequest) (w : World)
    (safe : string) (r : option dict) :
  sanitize_filename e (filename req) (input_dir e) = inr safe →
  is_supported_file e safe = true →
  get_doc_by_file_path e safe = inr r →
  doc_truthy r = false →
  fs w !! fspath (storage_path e safe) = None →
  (∀ op, io_fault e op = None) →
  let out := upload_to_input_dir e req w in
  let track := "upload" +:+ unique_suffix e (clock w) in
  out.1 = inr {| status := "success";
                 message := "File '" +:+ safe
                            +:+ "' uploaded successfully. Processing will continue in background.";
                 track_id := track |}
  ∧ track ≠ ""
  ∧ clock out.2 = S (clock w)
  ∧ fs out.2 !! fspath (storage_path e safe) = Some (content req)
  ∧ tasks out.2 = (tasks w ++ [PipelineIndexFile (storage_path e safe) track])%list
  ∧ trace out.2 =
      (trace w
       ++ [EvSanitize (filename req) (input_dir e);
           EvGetDoc safe;
           EvExists (storage_path e safe);
           EvOpen (AsPath (storage_path e safe)) "wb";
           EvCopyFileObj (AsPath (storage_path e safe));
           EvGenerateTrackId "upload"]
       ++ sidecar_events e req safe
       ++ [EvAddTask (PipelineIndexFile (storage_path e safe) track)])%list.
Proof.
  intros Hsan Hsup Hdoc Hfalsy Hnew Hio out track. subst out track.
  rewrite (run_new_upload e req w safe r Hsan Hsup Hdoc Hfalsy Hnew Hio).
  simpl. repeat split.
  - discriminate.
  - unfold files_after_upload. destruct (effective_metadata req).
    + rewrite lookup_insert_ne by apply meta_path_ne. apply lookup_insert_eq.
    + apply lookup_insert_eq.
Qed.

(** C5: an accepted upload with a non-empty metadata string, on a filesystem
    that does not fail: the file at the target path plus [.meta.json] holds
    the UTF-8 bytes of the JSON text, indented by two and with non-ASCII
    characters kept, of the sidecar object; that object is the parsed value
    when the string parses to an object, and the string wrapped under
    [raw_metadata] when parsing raises or yields something else; and the
    response is the success response in every one of these cases. *)
Theorem C5_sidecar_holds_metadata (req : UploadRequest) (w : World)
    (safe text : string) (r : option dict) :
  sanitize_filename e (filename req) (input_dir e) = inr safe →
  is_supported_file e safe = true →
  get_doc_by_file_path e safe = inr r →
  doc_truthy r = false →
  fs w !! fspath (storage_path e safe) = None →
  (∀ op, io_fault e op = None) →
  metadata req = Some text →
  text ≠ "" →
  let out := upload_to_input_dir e req w in
  let wrapped := PyDict [("raw_metadata", PyStr text)] in
  (∃ resp, out.1 = inr resp ∧ status resp = "success")
  ∧ (∃ obj,
       fs out.2 !! (fspath (truediv e (input_dir e) safe) +:+ ".meta.json")
         = Some (String.list_byte_of_string (json_dumps e obj false (Some 2%nat)))
       ∧ obj = sidecar_object e text
       ∧ (∀ entries, json_loads e text = inr (PyDict entries) → obj = PyDict entries)
       ∧ (∀ ex, json_loads e text = inl ex → obj = wrapped)
       ∧ (∀ v, json_loads e text = inr v → is_dict v = false → obj = wrapped)).
Proof.
  intros Hsan Hsup Hdoc Hfalsy Hnew Hio Hmd Htext out wrapped. subst out wrapped.
  rewrite (run_new_upload e req w safe r Hsan Hsup Hdoc Hfalsy Hnew Hio).
  simpl. split; [eexists; split; reflexivity|].
  exists (sidecar_object e text).
  assert (effective_metadata req = Some text) as Heff.
  { unfold effective_metadata. rewrite Hmd. by destruct text. }
  unfold files_after_upload. rewrite Heff. repeat split.
  - apply lookup_insert_eq.
  - intros entries Hload. unfold sidecar_object. by rewrite Hload.
  - intros ex Hload. unfold sidecar_object. by rewrite Hload.
  - intros v Hload Hnd. unfold sidecar_object. rewrite Hload. by destruct v.
Qed.

(** C8: the first thing the handler does is to call the sanitizer, before
    any filesystem access; when the sanitizer raises, no file is tested or
    written; when it returns a name, every path the handler tests or writes
    is that name joined to the input directory, or that path followed by
    [.meta.json], and no other file changes.  So for any notion of lying
    inside the input directory that the sanitizer's results satisfy, the
    storage path of every upload, whatever its original filename, lies
    inside the input directory. *)
Theorem C8_paths_come_from_the_sanitized_name (inside : string → Prop)
    (req : UploadRequest) (w : World) :
  (∀ raw safe, sanitize_filename e raw (input_dir e) = inr safe →
               inside (fspath (truediv e (input_dir e) safe))) →
  let out := upload_to_input_dir e req w in
  ∃ evs,
    trace out.2 = (trace w ++ EvSanitize (filename req) (input_dir e) :: evs)%list
    ∧ match sanitize_filename e (filename req) (input_dir e) with
      | inl _ => fs_targets evs = [] ∧ fs out.2 = fs w
      | inr safe =>
          inside (fspath (truediv e (input_dir e) safe))
          ∧ (∀ p, p ∈ fs_targets evs →
                  p = fspath (truediv e (input_dir e) safe)
                  ∨ p = fspath (truediv e (input_dir e) safe) +:+ ".meta.json")
          ∧ (∀ p, p ≠ fspath (truediv e (input_dir e) safe) →
                  p ≠ fspath (truediv e (input_dir e) safe) +:+ ".meta.json" →
                  fs out.2 !! p = fs w !! p)
      end.
Proof.
  intros Hsafe out. subst out.
  destruct (upload_accesses e req w) as (evs & Htrace & Hacc).
  exists evs. split; [exact Htrace|].
  destruct (sanitize_filename e (filename req) (input_dir e)) as [ex|safe] eqn:Hsan.
  - exact Hacc.
  - split; [by apply (Hsafe (filename req))|]. exact Hacc.
Qed.

(** C10: the store is asked about the bare sanitized name, while the
    existence test that follows, and the write after it, are made on the
    sanitized name joined to the input directory; the first is a [str], the
    second a path object, so the two checks never use the same identifier. *)
Theorem C10_store_and_filesystem_use_different_keys (req : UploadRequest) (w : World)
    (safe : string) (r : option dict) :
  sanitize_filename e (filename req) (input_dir e) = inr safe →
  is_supported_file e safe = true →
  get_doc_by_file_path e safe = inr r →
  doc_truthy r = false →
  let out := upload_to_input_dir e req w in
  let file_path := truediv e (input_dir e) safe in
  (∃ evs,
     trace out.2 = (trace w
                    ++ [EvSanitize (filename req) (input_dir e);
                        EvGetDoc safe;
                        EvExists file_path]
                    ++ evs)%list
     ∧ (io_fault e (OpExists (fspath file_path)) = None →
        fs w !! fspath file_path = None →
        ∃ evs', evs = EvOpen (AsPath file_path) "wb" :: evs'))
  ∧ AsStr safe ≠ AsPath file_path.
Proof.
  intros Hsan Hsup Hdoc Hfalsy out file_path. subst out file_path.
  split; [|discriminate].
  destruct w as [files queue events ticks].
  unfold upload_to_input_dir, try_except, upload_body, call_sanitize_filename,
    call_get_doc_by_file_path, path_exists, save_upload, save_json,
    open_for_writing, write_and_close, generate_track_id, add_task,
    emit, lift, raise, mbind, M_bind, mret, M_ret.
  rewrite Hsan. simpl. rewrite Hsup. simpl. rewrite Hdoc. simpl. rewrite Hfalsy.
  set (fp := truediv e (input_dir e) safe).
  destruct (io_fault e (OpExists (fspath fp))) as [ex|] eqn:Hex; simpl.
  { eexists. rewrite <- !app_assoc. split; [reflexivity | discriminate]. }
  destruct (bool_decide (is_Some (files !! fspath fp))) eqn:Hpresent; simpl.
  { eexists. rewrite <- !app_assoc. split; [reflexivity|].
    intros _ Hnone. apply bool_decide_eq_true_1 in Hpresent.
    rewrite Hnone in Hpresent. by destruct Hpresent. }
  destruct (io_fault e (OpOpen (fspath fp) "wb")); simpl; [close_prefix|].
  destruct (io_fault e (OpWrite (fspath fp))); simpl; [close_prefix|].
  destruct (str_truthy (metadata req)); simpl; [|close_prefix].
  rewrite run_parse_metadata.
  destruct (io_fault e (OpOpen (fspath fp +:+ ".meta.json") "w")); simpl;
    [close_prefix|].
  destruct (io_fault e (OpWrite (fspath fp +:+ ".meta.json"))); simpl; close_prefix.
Qed.

(** C4 (amended): whatever exception leaves the body of the handler, the
    handler answers with a 500 that carries the text of that exception, and
    undoes nothing: files and scheduled tasks are as the body left them.  In
    particular, when the sidecar cannot be written after the upload was
    saved, the upload stays on disk with its content, nothing is scheduled
    and the caller gets the 500; the sidecar path is untouched when the
    sidecar could not be opened, and holds an incomplete file when the
    failure came after it was opened. *)
Theorem C4_failures_surface_as_500_without_cleanup (req : UploadRequest) (w : World) :
  (∀ ex w1, upload_body e req w = (inl ex, w1) →
     let out := upload_to_input_dir e req w in
     out.1 = inl (HTTPException 500 (exn_str e ex))
     ∧ fs out.2 = fs w1
     ∧ tasks out.2 = tasks w1)
  ∧ (∀ safe r text ex,
       sanitize_filename e (filename req) (input_dir e) = inr safe →
       is_supported_file e safe = true →
       get_doc_by_file_path e safe = inr r →
       doc_truthy r = false →
       fs w !! fspath (storage_path e safe) = None →
       io_fault e (OpExists (fspath (storage_path e safe))) = None →
       io_fault e (OpOpen (fspath (storage_path e safe)) "wb") = None →
       io_fault e (OpWrite (fspath (storage_path e safe))) = None →
       metadata req = Some text →
       text ≠ "" →
       let out := upload_to_input_dir e req w in
       (io_fault e (OpOpen (sidecar_path e safe) "w") = Some ex →
          out.1 = inl (HTTPException 500 (exn_str e ex))
          ∧ fs out.2 !! fspath (storage_path e safe) = Some (content req)
          ∧ fs out.2 !! sidecar_path e safe = fs w !! sidecar_path e safe
          ∧ tasks out.2 = tasks w)
       ∧ (io_fault e (OpOpen (sidecar_path e safe) "w") = None →
          io_fault e (OpWrite (sidecar_path e safe)) = Some ex →
          out.1 = inl (HTTPException 500 (exn_str e ex))
          ∧ fs out.2 !! fspath (storage_path e safe) = Some (content req)
          ∧ fs out.2 !! sidecar_path e safe
              = Some (torn e (OpWrite (sidecar_path e safe)))
          ∧ tasks out.2 = tasks w)).
Proof.
  split.
  - intros ex w1 Hbody out. subst out.
    rewrite (run_body_raises e req w w1 ex Hbody). by simpl.
  - intros safe r text ex Hsan Hsup Hdoc Hfalsy Hnew Hex Hopen Hwrite Hmd Htext out.
    subst out. split.
    + intros Hfault.
      destruct (body_sidecar_open_fails e req w safe text r ex
                  Hsan Hsup Hdoc Hfalsy Hnew Hex Hopen Hwrite Hmd Htext Hfault)
        as (w1 & Hbody & Hfs & Htasks).
      rewrite (run_body_raises e req w w1 ex Hbody). simpl.
      rewrite Hfs, Htasks. repeat split.
      * apply lookup_insert_eq.
      * rewrite lookup_insert_ne; [done|]. unfold sidecar_path.
        intros Heq. symmetry in Heq. by apply meta_path_ne in Heq.
    + intros Hmopen Hfault.
      destruct (body_sidecar_write_fails e req w safe text r ex
                  Hsan Hsup Hdoc Hfalsy Hnew Hex Hopen Hwrite Hmd Htext Hmopen Hfault)
        as (w1 & Hbody & Hfs & Htasks).
      rewrite (run_body_raises e req w w1 ex Hbody). simpl.
      rewrite Hfs, Htasks. repeat split.
      * rewrite lookup_insert_ne by apply meta_path_ne. apply lookup_insert_eq.
      * apply lookup_insert_eq.
Qed.

End Claims.

(** ** The claims on concrete requests *)

(** C1: an upload named [evil.exe], which the document manager does not
    support, is answered with status 500, not 400: the 400 raised in the
    body is an [Exception], so the catch-all around the body turns it into
    an internal error whose detail is the text of the 400. *)
Example C1_unsupported_type_is_answered_with_500 :
  sanitize_filename demo_env "evil.exe" (input_dir demo_env) = inr "evil.exe"
  ∧ is_supported_file demo_env "evil.exe" = false
  ∧ (upload_to_input_dir demo_env (some_request "evil.exe" None) empty_world).1
    = inl (HTTPException 500
             "400: Unsupported file type. Supported types: ('.txt', '.md')").
Proof. repeat split. Qed.

Lemma C7_witness :
  sanitize_filename demo_env "evil.exe" (input_dir demo_env) = inr "evil.exe"
  ∧ is_supported_file demo_env "evil.exe" = false
  ∧ fs (upload_to_input_dir demo_env (some_request "evil.exe" None) empty_world).2
    = fs empty_world.
Proof.
  split; [reflexivity|]. split; [reflexivity|].
  destruct (C7_unsupported_upload_touches_no_file demo_env
              (some_request "evil.exe" None) empty_world "evil.exe"
              eq_refl eq_refl) as [Hfs _].
  exact Hfs.
Defined.

Lemma C2_witness :
  get_doc_by_file_path demo_env "indexed.txt"
    = inr (Some [("file_path", PyStr "indexed.txt"); ("status", PyStr "processed")])
  ∧ (upload_to_input_dir demo_env (some_request "indexed.txt" None) world_with_notes).1
    = inr {| status := "duplicated";
             message := "File 'indexed.txt' already exists in document storage (Status: processed).";
             track_id := "" |}.
Proof.
  split; [reflexivity|].
  destruct (C2_store_record_gives_duplicate demo_env
              (some_request "indexed.txt" None) world_with_notes "indexed.txt"
              [("file_path", PyStr "indexed.txt"); ("status", PyStr "processed")]
              (PyStr "processed") eq_refl eq_refl eq_refl eq_refl) as [Hresp _].
  exact Hresp.
Defined.

Lemma C3_witness :
  doc_truthy None = false
  ∧ fs world_with_notes !! "inputs/notes.txt" = Some old_bytes
  ∧ fs (upload_to_input_dir demo_env (some_request "notes.txt" None) world_with_notes).2
      !! "inputs/notes.txt" = Some old_bytes.
Proof.
  split; [reflexivity|]. split; [reflexivity|].
  destruct (C3_existing_file_gives_duplicate demo_env
              (some_request "notes.txt" None) world_with_notes "notes.txt" None old_bytes
              eq_refl eq_refl eq_refl eq_refl eq_refl eq_refl) as (_ & Hold & _).
  exact Hold.
Defined.

Lemma C9_witness :
  get_doc_by_file_path demo_env "legacy.txt" = inr (Some [("file_path", PyStr "legacy.txt")])
  ∧ dict_lookup "status" [("file_path", PyStr "legacy.txt")] = None
  ∧ (upload_to_input_dir demo_env (some_request "legacy.txt" None) empty_world).1
    = inr {| status := "duplicated";
             message := "File 'legacy.txt' already exists in document storage (Status: unknown).";
             track_id := "" |}.
Proof.
  split; [reflexivity|]. split; [reflexivity|].
  apply (C9_missing_status_reads_unknown demo_env
           (some_request "legacy.txt" None) empty_world "legacy.txt"
           [("file_path", PyStr "legacy.txt")]); [reflexivity..|discriminate|reflexivity].
Defined.

(** C9, as stated, fails on the empty record: a record with no field at all
    has no [status] field, yet the handler treats it as no record, and here
    goes on to store the upload. *)
Lemma C9_counterexample :
  ¬ (∀ (e : Env) (req : UploadRequest) (w : World) (safe : string) (record : dict),
       sanitize_filename e (filename req) (input_dir e) = inr safe →
       is_supported_file e safe = true →
       get_doc_by_file_path e safe = inr (Some record) →
       dict_lookup "status" record = None →
       (upload_to_input_dir e req w).1 =
         inr {| status := "duplicated";
                message := "File '" +:+ safe
                           +:+ "' already exists in document storage (Status: unknown).";
                track_id := "" |}).
Proof.
  intros Hclaim.
  specialize (Hclaim demo_env (some_request "blank.txt" None) empty_world "blank.txt" []
                eq_refl eq_refl eq_refl eq_refl).
  vm_compute in Hclaim. discriminate Hclaim.
Qed.

Lemma C6_witness :
  fs empty_world !! "inputs/notes.txt" = None
  ∧ (∀ op, io_fault demo_env op = None)
  ∧ (upload_to_input_dir demo_env (some_request "notes.txt" None) empty_world).1
    = inr {| status := "success";
             message := "File 'notes.txt' uploaded successfully. Processing will continue in background.";
             track_id := "upload_0" |}.
Proof.
  split; [reflexivity|]. split; [reflexivity|].
  destruct (C6_new_upload_is_stored_and_scheduled demo_env
              (some_request "notes.txt" None) empty_world "notes.txt" None
              eq_refl eq_refl eq_refl eq_refl eq_refl (λ _, eq_refl)) as [Hresp _].
  exact Hresp.
Defined.

Lemma C5_witness :
  metadata (some_request "notes.txt" (Some "hello")) = Some "hello"
  ∧ json_loads demo_env "hello"
    = inl (OtherException "JSONDecodeError" "Expecting value: line 1 column 1 (char 0)")
  ∧ ∃ resp,
      (upload_to_input_dir demo_env (some_request "notes.txt" (Some "hello")) empty_world).1
        = inr resp
      ∧ status resp = "success".
Proof.
  split; [reflexivity|]. split; [reflexivity|].
  destruct (C5_sidecar_holds_metadata demo_env
              (some_request "notes.txt" (Some "hello")) empty_world "notes.txt" "hello" None
              eq_refl eq_refl eq_refl eq_refl eq_refl (λ _, eq_refl) eq_refl
              ltac:(discriminate)) as [Hresp _].
  exact Hresp.
Defined.

Lemma C8_witness :
  (∀ raw safe, sanitize_filename demo_env raw (input_dir demo_env) = inr safe →
               under_inputs (fspath (truediv demo_env (input_dir demo_env) safe)))
  ∧ ∃ evs,
      trace (upload_to_input_dir demo_env
               (some_request "../../etc/notes.txt" None) empty_world).2
        = (trace empty_world
           ++ EvSanitize "../../etc/notes.txt" (input_dir demo_env) :: evs)%list
      ∧ under_inputs "inputs/notes.txt".
Proof.
  assert (∀ raw safe, sanitize_filename demo_env raw (input_dir demo_env) = inr safe →
                      under_inputs (fspath (truediv demo_env (input_dir demo_env) safe)))
    as Hsafe by (intros raw safe _; exists safe; reflexivity).
  split; [exact Hsafe|].
  destruct (C8_paths_come_from_the_sanitized_name demo_env under_inputs
              (some_request "../../etc/notes.txt" None) empty_world Hsafe)
    as (evs & Htrace & Hin & _).
  exists evs. split; [exact Htrace | exact Hin].
Defined.

Lemma C10_witness :
  sanitize_filename demo_env "notes.txt" (input_dir demo_env) = inr "notes.txt"
  ∧ get_doc_by_file_path demo_env "notes.txt" = inr None
  ∧ AsStr "notes.txt" ≠ AsPath (MkPath "inputs/notes.txt").
Proof.
  split; [reflexivity|]. split; [reflexivity|].
  destruct (C10_store_and_filesystem_use_different_keys demo_env
              (some_request "notes.txt" None) empty_world "notes.txt" None
              eq_refl eq_refl eq_refl eq_refl) as [_ Hne].
  exact Hne.
Defined.

Lemma C4_witness :
  io_fault (with_faults sidecar_open_fault demo_env)
    (OpOpen "inputs/notes.txt.meta.json" "w") = Some disk_full
  ∧ (upload_to_input_dir (with_faults sidecar_open_fault demo_env)
       (some_request "notes.txt" (Some "hello")) empty_world).1
    = inl (HTTPException 500 "[Errno 28] No space left on device")
  ∧ fs (upload_to_input_dir (with_faults sidecar_open_fault demo_env)
          (some_request "notes.txt" (Some "hello")) empty_world).2
      !! "inputs/notes.txt" = Some hello_bytes.
Proof.
  split; [reflexivity|].
  destruct (C4_failures_surface_as_500_without_cleanup
              (with_faults sidecar_open_fault demo_env)
              (some_request "notes.txt" (Some "hello")) empty_world) as [_ Hsidecar].
  destruct (Hsidecar "notes.txt" None "hello" disk_full
              eq_refl eq_refl eq_refl eq_refl eq_refl eq_refl eq_refl eq_refl eq_refl
              ltac:(discriminate)) as [Hopen _].
  destruct (Hopen eq_refl) as (Hresp & Hfile & _).
  split; [exact Hresp | exact Hfile].
Defined.

(** C4, as stated, fails when the sidecar was opened before the failure:
    the upload is on disk and the caller gets the 500, but a sidecar file
    exists too, holding what had been written of it. *)
Lemma C4_counterexample :
  ¬ (∀ (e : Env) (req : UploadRequest) (w : World) (safe text : string)
       (r : option dict) (ex : exn),
       sanitize_filename e (filename req) (input_dir e) = inr safe →
       is_supported_file e safe = true →
       get_doc_by_file_path e safe = inr r →
       doc_truthy r = false →
       fs w !! fspath (storage_path e safe) = None →
       fs w !! sidecar_path e safe = None →
       io_fault e (OpExists (fspath (storage_path e safe))) = None →
       io_fault e (OpOpen (fspath (storage_path e safe)) "wb") = None →
       io_fault e (OpWrite (fspath (storage_path e safe))) = None →
       metadata req = Some text →
       text ≠ "" →
       io_fault e (OpOpen (sidecar_path e safe) "w") = Some ex
       ∨ (io_fault e (OpOpen (sidecar_path e safe) "w") = None
          ∧ io_fault e (OpWrite (sidecar_path e safe)) = Some ex) →
       (upload_to_input_dir e req w).1 = inl (HTTPException 500 (exn_str e ex))
       ∧ fs (upload_to_input_dir e req w).2 !! fspath (storage_path e safe)
           = Some (content req)
       ∧ fs (upload_to_input_dir e req w).2 !! sidecar_path e safe = None).
Proof.
  intros Hclaim.
  destruct (Hclaim (with_faults sidecar_write_fault demo_env)
              (some_request "notes.txt" (Some "hello")) empty_world
              "notes.txt" "hello" None disk_full
              eq_refl eq_refl eq_refl eq_refl eq_refl eq_refl eq_refl eq_refl eq_refl
              eq_refl ltac:(discriminate) (or_intror (conj eq_refl eq_refl)))
    as (_ & _ & Hnone).
  vm_compute in Hnone. discriminate Hnone.
Qed.

(** * Further properties of the handler *)

Ltac unfold_steps :=
  unfold upload_to_input_dir, try_except, upload_body, call_sanitize_filename,
    call_get_doc_by_file_path, path_exists, save_upload, save_json,
    open_for_writing, write_and_close, generate_track_id, add_task,
    emit, lift, raise, mbind, M_bind, mret, M_ret.

Section Further.
Context (e : Env).

(** X1: without metadata ([None] or the empty string) a new upload writes one
    file and nothing else: the files afterwards are the files before plus the
    upload, [json.loads] and the sidecar are not involved, so a sidecar path
    that cannot be written does not matter. *)
Theorem upload_without_metadata_writes_one_file (req : UploadRequest) (w : World)
    (safe : string) (r : option dict) :
  sanitize_filename e (filename req) (input_dir e) = inr safe →
  is_supported_file e safe = true →
  get_doc_by_file_path e safe = inr r →
  doc_truthy r = false →
  fs w !! fspath (storage_path e safe) = None →
  io_fault e (OpExists (fspath (storage_path e safe))) = None →
  io_fault e (OpOpen (fspath (storage_path e safe)) "wb") = None →
  io_fault e (OpWrite (fspath (storage_path e safe))) = None →
  metadata req = None ∨ metadata req = Some "" →
  let out := upload_to_input_dir e req w in
  (∃ resp, out.1 = inr resp ∧ status resp = "success")
  ∧ fs out.2 = <[fspath (storage_path e safe) := content req]> (fs w)
  ∧ fs_targets (drop (length (trace w)) (trace out.2))
      = [fspath (storage_path e safe); fspath (storage_path e safe);
         fspath (storage_path e safe)].
Proof.
  intros Hsan Hsup Hdoc Hfalsy Hnew Hex Hopen Hwrite Hmd out. subst out.
  assert (str_truthy (metadata req) = false) as Hskip
    by (destruct Hmd as [-> | ->]; reflexivity).
  destruct w as [files queue events ticks]. simpl in Hnew.
  unfold_steps. unfold storage_path in *.
  rewrite Hsan. simpl. rewrite Hsup. simpl. rewrite Hdoc. simpl.
  rewrite Hfalsy, Hex. simpl.
  rewrite bool_decide_false by (rewrite Hnew; apply is_Some_None).
  rewrite Hopen, Hwrite, Hskip. simpl. reduce_world.
  split; [eexists; split; reflexivity|].
  split; [by rewrite insert_insert_eq|].
  rewrite <- !app_assoc. rewrite drop_app_length. reflexivity.
Qed.

(** X2: the three outcomes of the handler, on every path.  An error is always a
    500 and schedules nothing.  A duplicate response has an empty tracking
    id, changes no file and schedules nothing.  A success response means
    that the target path was free, that it now holds the uploaded bytes, and
    that exactly one indexing task was queued, for that path and the
    tracking id of the response. *)
Theorem outcome_of_every_upload (req : UploadRequest) (w : World) :
  let out := upload_to_input_dir e req w in
  match out.1 with
  | inl ex =>
      (∃ cause, ex = HTTPException 500 (exn_str e cause))
      ∧ tasks out.2 = tasks w
  | inr resp =>
      (status resp = "duplicated"
       ∧ track_id resp = ""
       ∧ fs out.2 = fs w
       ∧ tasks out.2 = tasks w)
      ∨ (status resp = "success"
         ∧ ∃ safe,
             sanitize_filename e (filename req) (input_dir e) = inr safe
             ∧ fs w !! fspath (storage_path e safe) = None
             ∧ fs out.2 !! fspath (storage_path e safe) = Some (content req)
             ∧ tasks out.2
               = (tasks w ++ [PipelineIndexFile (storage_path e safe) (track_id resp)])%list)
  end.
Proof.
  intros out. subst out.
  destruct w as [files queue events ticks].
  unfold_steps. unfold storage_path.
  destruct (sanitize_filename e (filename req) (input_dir e)) as [ex|safe] eqn:Hsan;
    simpl; [by eauto|].
  set (fp := fspath (truediv e (input_dir e) safe)).
  destruct (is_supported_file e safe); simpl; [|by eauto].
  destruct (get_doc_by_file_path e safe) as [ex|r]; simpl; [by eauto|].
  destruct (doc_truthy r); simpl; [by left|].
  destruct (io_fault e (OpExists fp)); simpl; [by eauto|].
  destruct (bool_decide (is_Some (files !! fp))) eqn:Hpresent; simpl; [by left|].
  apply bool_decide_eq_false_1 in Hpresent. apply eq_None_not_Some in Hpresent.
  destruct (io_fault e (OpOpen fp "wb")); simpl; [by eauto|].
  destruct (io_fault e (OpWrite fp)); simpl; [by eauto|].
  destruct (str_truthy (metadata req)); simpl.
  - rewrite run_parse_metadata.
    destruct (io_fault e (OpOpen (fp +:+ ".meta.json") "w")); simpl; [by eauto|].
    destruct (io_fault e (OpWrite (fp +:+ ".meta.json"))); simpl; [by eauto|].
    right. split; [reflexivity|]. exists safe. repeat split; [done|].
    rewrite !(lookup_insert_ne _ (fp +:+ ".meta.json")) by apply meta_path_ne.
    apply lookup_insert_eq.
  - right. split; [reflexivity|]. exists safe. repeat split; [done|].
    apply lookup_insert_eq.
Qed.

(** X3: whatever the metadata string is, parsing it raises nothing, changes
    nothing and yields a [dict]: the sidecar always holds a JSON object. *)
Theorem parsed_metadata_is_always_a_dict (text : string) (w : World) :
  ∃ entries, parse_metadata e text w = (inr (PyDict entries), w).
Proof.
  rewrite run_parse_metadata. unfold sidecar_object.
  destruct (json_loads e text) as [ex|[]]; eauto.
Qed.

(** X4: uploading a name a second time: once an upload was stored, a later
    upload that sanitizes to the same name is answered as a duplicate in the
    input directory even though the store still has no record; the bytes of
    the first upload stay, and only the first upload is queued for
    indexing. *)
Theorem second_upload_of_a_name_is_a_duplicate (req1 req2 : UploadRequest)
    (w : World) (safe : string) (r : option dict) :
  sanitize_filename e (filename req1) (input_dir e) = inr safe →
  sanitize_filename e (filename req2) (input_dir e) = inr safe →
  is_supported_file e safe = true →
  get_doc_by_file_path e safe = inr r →
  doc_truthy r = false →
  fs w !! fspath (storage_path e safe) = None →
  (∀ op, io_fault e op = None) →
  let first := upload_to_input_dir e req1 w in
  let second := upload_to_input_dir e req2 first.2 in
  second.1 = inr {| status := "duplicated";
                    message := "File '" +:+ safe
                               +:+ "' already exists in the input directory.";
                    track_id := "" |}
  ∧ fs second.2 = fs first.2
  ∧ fs second.2 !! fspath (storage_path e safe) = Some (content req1)
  ∧ tasks second.2
    = (tasks w ++ [PipelineIndexFile (storage_path e safe)
                     ("upload" +:+ unique_suffix e (clock w))])%list.
Proof.
  intros Hsan1 Hsan2 Hsup Hdoc Hfalsy Hnew Hio first second. subst first second.
  rewrite (run_new_upload e req1 w safe r Hsan1 Hsup Hdoc Hfalsy Hnew Hio).
  cbn [snd].
  assert (files_after_upload e req1 safe (fs w) !! fspath (storage_path e safe)
          = Some (content req1)) as Hstored.
  { unfold files_after_upload. destruct (effective_metadata req1).
    - rewrite lookup_insert_ne by apply meta_path_ne. apply lookup_insert_eq.
    - apply lookup_insert_eq. }
  rewrite (run_file_duplicate e req2 _ safe r Hsan2 Hsup Hdoc Hfalsy (Hio _))
    by (cbn [fs]; rewrite Hstored; eauto).
  cbn [fst snd]. reduce_world. by repeat split.
Qed.

(** X5: a copy that fails half way blocks the name: the handler answers 500 but
    leaves the file it had opened, so the same upload tried again, on a
    filesystem that now works, is answered as a duplicate and the incomplete
    file stays on disk. *)
Theorem failed_copy_blocks_the_retry (req : UploadRequest) (w : World)
    (safe : string) (r : option dict) (ex : exn) :
  sanitize_filename e (filename req) (input_dir e) = inr safe →
  is_supported_file e safe = true →
  get_doc_by_file_path e safe = inr r →
  doc_truthy r = false →
  fs w !! fspath (storage_path e safe) = None →
  io_fault e (OpExists (fspath (storage_path e safe))) = None →
  io_fault e (OpOpen (fspath (storage_path e safe)) "wb") = None →
  io_fault e (OpWrite (fspath (storage_path e safe))) = Some ex →
  let first := upload_to_input_dir e req w in
  let second := upload_to_input_dir (with_faults no_fault e) req first.2 in
  first.1 = inl (HTTPException 500 (exn_str e ex))
  ∧ tasks first.2 = tasks w
  ∧ second.1 = inr {| status := "duplicated";
                      message := "File '" +:+ safe
                                 +:+ "' already exists in the input directory.";
                      track_id := "" |}
  ∧ fs second.2 !! fspath (storage_path e safe)
    = Some (torn e (OpWrite (fspath (storage_path e safe)))).
Proof.
  intros Hsan Hsup Hdoc Hfalsy Hnew Hex Hopen Hwrite first second.
  assert (first.1 = inl (HTTPException 500 (exn_str e ex))
          ∧ tasks first.2 = tasks w
          ∧ fs first.2 !! fspath (storage_path e safe)
            = Some (torn e (OpWrite (fspath (storage_path e safe))))) as Hfirst.
  { subst first second. destruct w as [files queue events ticks]. simpl in Hnew.
    unfold_steps. unfold storage_path in *.
    rewrite Hsan. simpl. rewrite Hsup. simpl. rewrite Hdoc. simpl.
    rewrite Hfalsy, Hex. simpl.
    rewrite bool_decide_false by (rewrite Hnew; apply is_Some_None).
    rewrite Hopen, Hwrite. simpl. reduce_world.
    repeat split. apply lookup_insert_eq. }
  destruct Hfirst as (Hresp & Htasks & Htorn).
  split; [exact Hresp|]. split; [exact Htasks|].
  subst second.
  rewrite (run_file_duplicate (with_faults no_fault e) req first.2 safe r
             Hsan Hsup Hdoc Hfalsy eq_refl)
    by (change (storage_path (with_faults no_fault e) safe) with (storage_path e safe);
        rewrite Htorn; eauto).
  cbn [fst snd]. split; [reflexivity|]. exact Htorn.
Qed.

(** X6: only the upload itself is checked for duplicates, not its sidecar: a
    sidecar file left at the sidecar path does not stop a new upload, which
    overwrites it when it carries metadata and leaves it, stale, next to
    the new file when it does not. *)
Theorem stale_sidecar_is_not_checked (req : UploadRequest) (w : World)
    (safe : string) (r : option dict) (old : list Byte.byte) :
  sanitize_filename e (filename req) (input_dir e) = inr safe →
  is_supported_file e safe = true →
  get_doc_by_file_path e safe = inr r →
  doc_truthy r = false →
  fs w !! fspath (storage_path e safe) = None →
  fs w !! sidecar_path e safe = Some old →
  (∀ op, io_fault e op = None) →
  let out := upload_to_input_dir e req w in
  (∃ resp, out.1 = inr resp ∧ status resp = "success")
  ∧ fs out.2 !! sidecar_path e safe
    = match effective_metadata req with
      | Some text => Some (sidecar_bytes e text)
      | None => Some old
      end.
Proof.
  intros Hsan Hsup Hdoc Hfalsy Hnew Hold Hio out. subst out.
  rewrite (run_new_upload e req w safe r Hsan Hsup Hdoc Hfalsy Hnew Hio).
  cbn [fst snd fs]. split; [eexists; split; reflexivity|].
  unfold files_after_upload. destruct (effective_metadata req).
  - apply lookup_insert_eq.
  - rewrite lookup_insert_ne; [exact Hold|].
    intros Heq. symmetry in Heq. by apply meta_path_ne in Heq.
Qed.

(** X7: when the sanitizer raises, the handler answers 500 with the text of that
    exception, having queried neither the store nor the filesystem: the
    trace holds the sanitizer call and the two log records, nothing else. *)
Theorem sanitizer_failure_stops_everything (req : UploadRequest) (w : World)
    (ex : exn) :
  sanitize_filename e (filename req) (input_dir e) = inl ex →
  let out := upload_to_input_dir e req w in
  out.1 = inl (HTTPException 500 (exn_str e ex))
  ∧ fs out.2 = fs w
  ∧ tasks out.2 = tasks w
  ∧ trace out.2
    = (trace w ++ [EvSanitize (filename req) (input_dir e);
                   EvLogError ("Error /documents/upload: " +:+ filename req
                               +:+ ": " +:+ exn_str e ex);
                   EvLogTraceback ex])%list.
Proof.
  intros Hsan out. subst out. destruct w as [files queue events ticks].
  unfold_steps. rewrite Hsan. simpl. reduce_world.
  repeat split. by rewrite <- !app_assoc.
Qed.

(** X8: when the store raises, the handler answers 500 with the text of that
    exception; the filesystem was not consulted and nothing was written. *)
Theorem store_failure_touches_no_file (req : UploadRequest) (w : World)
    (safe : string) (ex : exn) :
  sanitize_filename e (filename req) (input_dir e) = inr safe →
  is_supported_file e safe = true →
  get_doc_by_file_path e safe = inl ex →
  let out := upload_to_input_dir e req w in
  out.1 = inl (HTTPException 500 (exn_str e ex))
  ∧ fs out.2 = fs w
  ∧ tasks out.2 = tasks w
  ∧ fs_targets (drop (length (trace w)) (trace out.2)) = [].
Proof.
  intros Hsan Hsup Hdoc out. subst out. destruct w as [files queue events ticks].
  unfold_steps. rewrite Hsan. simpl. rewrite Hsup. simpl. rewrite Hdoc. simpl.
  reduce_world. repeat split.
  rewrite <- !app_assoc. rewrite drop_app_length. reflexivity.
Qed.

(** X9: no upload removes a file, and the only file already on disk that an
    upload can change is the sidecar path of its own sanitized name: every
    other file, the one at the target path included, keeps its content on
    every path of the handler. *)
Theorem existing_files_survive (req : UploadRequest) (w : World) :
  let out := upload_to_input_dir e req w in
  (∀ p, is_Some (fs w !! p) → is_Some (fs out.2 !! p))
  ∧ (∀ p old, fs w !! p = Some old →
       (∀ safe, sanitize_filename e (filename req) (input_dir e) = inr safe →
                p ≠ sidecar_path e safe) →
       fs out.2 !! p = Some old).
Proof.
  intros out. subst out.
  assert (∀ p old, fs w !! p = Some old →
            (∀ safe, sanitize_filename e (filename req) (input_dir e) = inr safe →
                     p ≠ sidecar_path e safe) →
            fs (upload_to_input_dir e req w).2 !! p = Some old) as Hkeep.
  { intros p old Hold Hside.
    destruct (upload_accesses e req w) as (evs & _ & Hacc).
    destruct (sanitize_filename e (filename req) (input_dir e)) as [ex|safe] eqn:Hsan.
    { destruct Hacc as [_ ->]. exact Hold. }
    destruct Hacc as [_ Hframe].
    destruct (decide (p = fspath (storage_path e safe))) as [->|Hne].
    - clear Hframe Hside. revert Hold.
      destruct w as [files queue events ticks]. intros Hold. simpl in Hold.
      unfold_steps. unfold storage_path in *. rewrite Hsan. simpl.
      destruct (is_supported_file e safe); simpl; [|done].
      destruct (get_doc_by_file_path e safe) as [ex'|r]; simpl; [done|].
      destruct (doc_truthy r); simpl; [done|].
      destruct (io_fault e (OpExists _)); simpl; [done|].
      rewrite bool_decide_true by (rewrite Hold; eauto). done.
    - rewrite Hframe; [exact Hold | exact Hne | by apply Hside]. }
  split; [|exact Hkeep].
  intros p [old Hold].
  destruct (sanitize_filename e (filename req) (input_dir e)) as [ex|safe] eqn:Hsan.
  { rewrite (Hkeep p old Hold); [eauto | intros safe Hsafe; congruence]. }
  destruct (decide (p = sidecar_path e safe)) as [->|Hne].
  - clear Hkeep. destruct w as [files queue events ticks]. simpl in Hold.
    unfold_steps. unfold sidecar_path, storage_path in *. rewrite Hsan. simpl.
    set (fp := fspath (truediv e (input_dir e) safe)) in *.
    destruct (is_supported_file e safe); simpl; [|eauto].
    destruct (get_doc_by_file_path e safe) as [ex'|r]; simpl; [eauto|].
    destruct (doc_truthy r); simpl; [eauto|].
    destruct (io_fault e (OpExists fp)); simpl; [eauto|].
    destruct (bool_decide (is_Some (files !! fp))); simpl; [eauto|].
    destruct (io_fault e (OpOpen fp "wb")); simpl; [eauto|].
    destruct (io_fault e (OpWrite fp)); simpl;
      [rewrite !lookup_insert_is_Some'; eauto|].
    destruct (str_truthy (metadata req)); simpl;
      [|rewrite !lookup_insert_is_Some'; eauto].
    rewrite run_parse_metadata.
    destruct (io_fault e (OpOpen (fp +:+ ".meta.json") "w")); simpl;
      [rewrite !lookup_insert_is_Some'; eauto|].
    destruct (io_fault e (OpWrite (fp +:+ ".meta.json"))); simpl;
      rewrite !lookup_insert_is_Some'; eauto.
  - rewrite (Hkeep p old Hold); [eauto|].
    intros safe' Hsafe'. congruence.
Qed.

End Further.

(** ** The further properties on concrete requests *)

Lemma upload_without_metadata_witness :
  metadata (some_request "notes.txt" (Some "")) = Some ""
  ∧ fs empty_world !! "inputs/notes.txt" = None
  ∧ fs (upload_to_input_dir (with_faults sidecar_open_fault demo_env)
          (some_request "notes.txt" (Some "")) empty_world).2
    = <["inputs/notes.txt" := hello_bytes]> (fs empty_world).
Proof.
  split; [reflexivity|]. split; [reflexivity|].
  destruct (upload_without_metadata_writes_one_file
              (with_faults sidecar_open_fault demo_env)
              (some_request "notes.txt" (Some "")) empty_world "notes.txt" None
              eq_refl eq_refl eq_refl eq_refl eq_refl eq_refl eq_refl eq_refl
              (or_intror eq_refl)) as (_ & Hfs & _).
  exact Hfs.
Defined.

Lemma second_upload_witness :
  sanitize_filename demo_env "notes.txt" (input_dir demo_env) = inr "notes.txt"
  ∧ sanitize_filename demo_env "../notes.txt" (input_dir demo_env) = inr "notes.txt"
  ∧ fs (upload_to_input_dir demo_env
          {| filename := "../notes.txt"; content := old_bytes; metadata := None |}
          (upload_to_input_dir demo_env (some_request "notes.txt" None) empty_world).2).2
      !! "inputs/notes.txt" = Some hello_bytes.
Proof.
  split; [reflexivity|]. split; [reflexivity|].
  destruct (second_upload_of_a_name_is_a_duplicate demo_env
              (some_request "notes.txt" None)
              {| filename := "../notes.txt"; content := old_bytes; metadata := None |}
              empty_world "notes.txt" None
              eq_refl eq_refl eq_refl eq_refl eq_refl eq_refl (λ _, eq_refl))
    as (_ & _ & Hkept & _).
  exact Hkept.
Defined.

Lemma failed_copy_witness :
  io_fault (with_faults upload_write_fault demo_env) (OpWrite "inputs/notes.txt")
    = Some disk_full
  ∧ (upload_to_input_dir (with_faults upload_write_fault demo_env)
       (some_request "notes.txt" None) empty_world).1
    = inl (HTTPException 500 "[Errno 28] No space left on device")
  ∧ (upload_to_input_dir (with_faults no_fault (with_faults upload_write_fault demo_env))
       (some_request "notes.txt" None)
       (upload_to_input_dir (with_faults upload_write_fault demo_env)
          (some_request "notes.txt" None) empty_world).2).1
    = inr {| status := "duplicated";
             message := "File 'notes.txt' already exists in the input directory.";
             track_id := "" |}.
Proof.
  split; [reflexivity|].
  destruct (failed_copy_blocks_the_retry (with_faults upload_write_fault demo_env)
              (some_request "notes.txt" None) empty_world "notes.txt" None disk_full
              eq_refl eq_refl eq_refl eq_refl eq_refl eq_refl eq_refl eq_refl)
    as (Hfirst & _ & Hsecond & _).
  split; [exact Hfirst | exact Hsecond].
Defined.

Lemma stale_sidecar_witness :
  fs world_with_stale_sidecar !! "inputs/notes.txt" = None
  ∧ fs world_with_stale_sidecar !! "inputs/notes.txt.meta.json" = Some old_bytes
  ∧ fs (upload_to_input_dir demo_env (some_request "notes.txt" None)
          world_with_stale_sidecar).2 !! "inputs/notes.txt.meta.json"
    = Some old_bytes.
Proof.
  split; [reflexivity|]. split; [reflexivity|].
  destruct (stale_sidecar_is_not_checked demo_env (some_request "notes.txt" None)
              world_with_stale_sidecar "notes.txt" None old_bytes
              eq_refl eq_refl eq_refl eq_refl eq_refl eq_refl (λ _, eq_refl))
    as [_ Hstale].
  exact Hstale.
Defined.

Lemma sanitizer_failure_witness :
  sanitize_filename demo_env "uploads/" (input_dir demo_env)
    = inl (HTTPException 400 "Invalid filename")
  ∧ (upload_to_input_dir demo_env (some_request "uploads/" None) empty_world).1
    = inl (HTTPException 500 "400: Invalid filename").
Proof.
  split; [reflexivity|].
  destruct (sanitizer_failure_stops_everything demo_env
              (some_request "uploads/" None) empty_world
              (HTTPException 400 "Invalid filename") eq_refl) as [Hresp _].
  exact Hresp.
Defined.

Lemma store_failure_witness :
  get_doc_by_file_path demo_env "down.txt"
    = inl (OtherException "ConnectionError" "document store unavailable")
  ∧ (upload_to_input_dir demo_env (some_request "down.txt" None) empty_world).1
    = inl (HTTPException 500 "document store unavailable")
  ∧ fs (upload_to_input_dir demo_env (some_request "down.txt" None) empty_world).2
    = fs empty_world.
Proof.
  split; [reflexivity|].
  destruct (store_failure_touches_no_file demo_env
              (some_request "down.txt" None) empty_world "down.txt"
              (OtherException "ConnectionError" "document store unavailable")
              eq_refl eq_refl eq_refl) as (Hresp & Hfs & _).
  split; [exact Hresp | exact Hfs].
Defined.
